(** * typeflow: the [Variable] class of [src/main.py]

    A [Variable] is a typed container: it is created for one type and
    only takes values of that type.  [x << v] assigns a value (or copies
    the value of another [Variable]), [x >> y] transfers the value of
    [x] to [y], and [str(x)] shows the value.

    [Variable] objects are mutable and passed by reference, so the model
    keeps them in a store (a finite map from addresses to objects) and
    every method is a computation over that store which may raise. *)

From stdpp Require Import gmap strings pretty.
From Stdlib Require DecimalFacts DecimalPos DecimalN.

Local Open Scope string_scope.

(** ** The fragment of Python's object model the class relies on *)

(** The classes of the fragment.  [TVariable] is the class of the source
    file itself. *)
Inductive pytype :=
  | TObject | TType | TNoneType | TInt | TBool | TStr | TVariable.

Definition addr := nat.

(** Values: [None], integers, booleans, strings, classes, and references
    to [Variable] objects in the store. *)
Inductive pyval :=
  | VNone
  | VInt (z : Z)
  | VBool (b : bool)
  | VStr (s : string)
  | VType (t : pytype)
  | VRef (a : addr).

#[global] Instance pytype_eq_dec : EqDecision pytype.
Proof. solve_decision. Defined.
#[global] Instance pyval_eq_dec : EqDecision pyval.
Proof. solve_decision. Defined.

(** [type(v)] *)
Definition type_of (v : pyval) : pytype :=
  match v with
  | VNone => TNoneType
  | VInt _ => TInt
  | VBool _ => TBool
  | VStr _ => TStr
  | VType _ => TType
  | VRef _ => TVariable
  end.

(** [t.__mro__]: the class itself followed by its ancestors.  [bool] is a
    subclass of [int], and every class is a subclass of [object].  The
    classes of the fragment have the plain metaclass [type]: classes that
    decide [isinstance] by a hook of their own, such as the abstract base
    classes, are outside it. *)
Definition mro (t : pytype) : list pytype :=
  match t with
  | TObject => [TObject]
  | TBool => [TBool; TInt; TObject]
  | _ => [t; TObject]
  end.

(** [issubclass(t, u)] *)
Definition issubclass (t u : pytype) : bool := bool_decide (u ∈ mro t).

(** [isinstance(v, t)] *)
Definition isinstance (v : pyval) (t : pytype) : bool :=
  issubclass (type_of v) t.

(** [v is None] *)
Definition is_None (v : pyval) : bool :=
  match v with VNone => true | _ => false end.

(** [t.__name__] *)
Definition type_name (t : pytype) : string :=
  match t with
  | TObject => "object"
  | TType => "type"
  | TNoneType => "NoneType"
  | TInt => "int"
  | TBool => "bool"
  | TStr => "str"
  | TVariable => "Variable"
  end.

(** What the behaviour of [str] depends on besides the class: the name
    of the module [main.py] is loaded as ([__main__] when it is run as a
    script, [main] when it is imported), and the interpreter's limit on
    the decimal digits of an integer turned into a string,
    [sys.get_int_max_str_digits()]: 4300 unless it was changed, 0 for no
    limit, as on interpreters that predate the limit (an interpreter
    admits 0 or at least 640 only). *)
Record interp := mkInterp {
  module_name : string;
  int_max_str_digits : nat
}.

(** A current CPython with its defaults, running the file as a script,
    which is how its demonstration is guarded. *)
Definition cpython : interp :=
  {| module_name := "__main__"; int_max_str_digits := 4300 |}.

(** [str(t)] for a class [t]. *)
Definition class_str (E : interp) (t : pytype) : string :=
  match t with
  | TVariable => "<class '" +:+ module_name E +:+ "." +:+ type_name t +:+ "'>"
  | _ => "<class '" +:+ type_name t +:+ "'>"
  end.

(** ** The store *)

(** A [Variable] object: the two attributes [__init__] sets.  ([Variable]
    is a reserved word here, hence the underscore.) *)
Record Variable_ := mkVariable { type : pytype; data : pyval }.

#[global] Instance Variable_eq_dec : EqDecision Variable_.
Proof. solve_decision. Defined.

Abbreviation heap := (gmap addr Variable_).

(** ** Computations over the store that may raise *)

Inductive exn :=
  | TypeError (msg : string)
  | ValueError (msg : string).

(** [Done a]: normal return; [Raised e]: the exception [e] propagates;
    [Wrong]: an attribute of an address no object lives at was used,
    which no Python program can do. *)
Inductive outcome (A : Type) :=
  | Done (a : A)
  | Raised (e : exn)
  | Wrong.
Arguments Done {A} a.
Arguments Raised {A} e.
Arguments Wrong {A}.

(** The store is threaded through, and it is returned with an exception
    too: raising does not undo earlier writes. *)
Definition M (A : Type) : Type := heap → heap * outcome A.

#[global] Instance M_ret : MRet M := λ A a h, (h, Done a).

#[global] Instance M_bind : MBind M := λ A B k m h,
  match m h with
  | (h', Done a) => k a h'
  | (h', Raised e) => (h', Raised e)
  | (h', Wrong) => (h', Wrong)
  end.

Definition raise {A} (e : exn) : M A := λ h, (h, Raised e).

Definition wrong {A} : M A := λ h, (h, Wrong).

(** [a.type] *)
Definition get_type (a : addr) : M pytype :=
  λ h, match h !! a with
       | Some c => (h, Done (type c))
       | None => (h, Wrong)
       end.

(** [a.data] *)
Definition get_data (a : addr) : M pyval :=
  λ h, match h !! a with
       | Some c => (h, Done (data c))
       | None => (h, Wrong)
       end.

(** [a.data = v] *)
Definition set_data (a : addr) (v : pyval) : M unit :=
  λ h, match h !! a with
       | Some c => (<[a := mkVariable (type c) v]> h, Done tt)
       | None => (h, Wrong)
       end.

(** A new object at an address not in use. *)
Definition alloc (c : Variable_) : M addr :=
  λ h, let a := fresh (dom h) in (<[a := c]> h, Done a).

(** ** The class [Variable] *)

(** [Variable(data_type)], that is [__init__] on a new object. *)
Definition new_Variable (data_type : pyval) : M addr :=
  if negb (isinstance data_type TType) then
    raise (TypeError "`data_type` must be a valid Python type.")
  else
    match data_type with
    | VType t => alloc (mkVariable t VNone)
    | _ => wrong
    end.

(** [self >> other] *)
Definition rshift (self : addr) (other : pyval) : M unit :=
  if negb (isinstance other TVariable) then
    raise (TypeError "Right operand must be a `Variable` instance.")
  else
    match other with
    | VRef o =>
        other_type ← get_type o;
        self_type ← get_type self;
        if bool_decide (other_type ≠ self_type) then
          raise (TypeError ("Type mismatch: Cannot transfer "
                   +:+ type_name self_type +:+ " to "
                   +:+ type_name other_type +:+ "."))
        else
          self_data ← get_data self;
          if is_None self_data then
            raise (ValueError "Cannot transfer uninitialized data.")
          else
            set_data o self_data
    | _ => wrong
    end.

(** [self << value] *)
Definition lshift (self : addr) (value : pyval) : M unit :=
  expected_type ← get_type self;
  if isinstance value TVariable then
    match value with
    | VRef s =>
        value_type ← get_type s;
        if bool_decide (value_type ≠ expected_type) then
          raise (TypeError ("Type mismatch: Cannot assign "
                   +:+ type_name value_type +:+ " to "
                   +:+ type_name expected_type +:+ "."))
        else
          value_data ← get_data s;
          set_data self value_data
    | _ => wrong
    end
  else if negb (isinstance value expected_type) then
    raise (TypeError ("Expected type " +:+ type_name expected_type
             +:+ ", got " +:+ type_name (type_of value) +:+ "."))
  else
    set_data self value.

(** The number of decimal digits of [z], the sign left out: 1 for 0. *)
Definition num_digits (z : Z) : nat :=
  Decimal.nb_digits (N.to_uint (Z.abs_N z)).

(** The integer [z] has more decimal digits than the limit allows. *)
Definition exceeds_digits (limit : nat) (z : Z) : bool :=
  bool_decide (limit ≠ 0 ∧ limit < num_digits z).

(** The message of the [ValueError] that [str] raises for such an
    integer. *)
Definition msg_int_digits (limit : nat) : string :=
  "Exceeds the limit (" +:+ pretty limit
    +:+ " digits) for integer string conversion; "
    +:+ "use sys.set_int_max_str_digits() to increase the limit".

(** [str(z)] for an integer. *)
Definition int_str (E : interp) (z : Z) : outcome string :=
  if exceeds_digits (int_max_str_digits E) z
  then Raised (ValueError (msg_int_digits (int_max_str_digits E)))
  else Done (pretty z).

(** [str(v)]; for a [Variable] it is the object's own [__str__], given
    here as [str_of_ref]. *)
Definition py_str (E : interp) (str_of_ref : addr → outcome string)
    (v : pyval) : outcome string :=
  match v with
  | VNone => Done "None"
  | VInt z => int_str E z
  | VBool true => Done "True"
  | VBool false => Done "False"
  | VStr s => Done s
  | VType t => Done (class_str E t)
  | VRef a => str_of_ref a
  end.

(** [self.__str__()].  A [Variable] may hold a [Variable], so the call
    can nest; [depth] bounds the nesting, and [Wrong] stands for a
    nesting deeper than that. *)
Fixpoint Variable_str (E : interp) (depth : nat) (h : heap) (self : addr)
  : outcome string :=
  match depth with
  | 0 => Wrong
  | S d =>
      match h !! self with
      | Some c =>
          if negb (is_None (data c))
          then py_str E (Variable_str E d h) (data c)
          else Done ("Uninitialized variable of type " +:+ type_name (type c))
      | None => Wrong
      end
  end.

(** [str(self)] as a computation. *)
Definition str_ (E : interp) (depth : nat) (self : addr) : M string :=
  λ h, (h, Variable_str E depth h self).

(** [try: m except TypeError as e: ...]: the message of the [TypeError]
    that [m] raised, if it raised one; any other exception propagates. *)
Definition except_TypeError (m : M unit) : M (option string) :=
  λ h, match m h with
       | (h', Done _) => (h', Done None)
       | (h', Raised (TypeError msg)) => (h', Done (Some msg))
       | (h', Raised e) => (h', Raised e)
       | (h', Wrong) => (h', Wrong)
       end.

(** The demonstration at the end of the file: the texts it formats into
    its six prints, and the messages of the two errors it catches. *)
Definition demo (E : interp) : M (list string * list (option string)) :=
  x ← new_Variable (VType TInt);
  lshift x (VInt 3);;
  s1 ← str_ E 1 x;
  y ← new_Variable (VType TInt);
  lshift y (VRef x);;
  s2 ← str_ E 1 y;
  lshift x (VInt 4);;
  s3 ← str_ E 1 x;
  s4 ← str_ E 1 y;
  rshift x (VRef y);;
  s5 ← str_ E 1 y;
  z ← new_Variable (VType TStr);
  lshift z (VStr "hello, world");;
  s6 ← str_ E 1 z;
  e1 ← except_TypeError (lshift z (VInt 42));
  e2 ← except_TypeError (lshift y (VRef z));
  mret ([s1; s2; s3; s4; s5; s6], [e1; e2]).

(** ** Outcomes as the callers see them *)

(** The call raised a [TypeError]. *)
Definition is_TypeError {A} (o : outcome A) : bool :=
  match o with Raised (TypeError _) => true | _ => false end.

(** The call raised a [ValueError]. *)
Definition is_ValueError {A} (o : outcome A) : bool :=
  match o with Raised (ValueError _) => true | _ => false end.

(** The call raised. *)
Definition is_Raised {A} (o : outcome A) : bool :=
  match o with Raised _ => true | _ => false end.

(** The messages of the three [TypeError]s and of the [ValueError]. *)
Definition msg_transfer (self_type other_type : pytype) : string :=
  "Type mismatch: Cannot transfer " +:+ type_name self_type +:+ " to "
    +:+ type_name other_type +:+ ".".

Definition msg_assign (value_type expected_type : pytype) : string :=
  "Type mismatch: Cannot assign " +:+ type_name value_type +:+ " to "
    +:+ type_name expected_type +:+ ".".

Definition msg_expected (expected_type got : pytype) : string :=
  "Expected type " +:+ type_name expected_type +:+ ", got "
    +:+ type_name got +:+ ".".

(** A value that is not a [Variable] object. *)
Definition is_raw (v : pyval) : bool :=
  match v with VRef _ => false | _ => true end.

(** [str(v)] of the raw value [v] stays within the digit limit: every
    raw value but an integer with too many digits. *)
Definition str_fits (E : interp) (v : pyval) : bool :=
  match v with
  | VInt z => negb (exceeds_digits (int_max_str_digits E) z)
  | _ => true
  end.

(** ** Sequences of calls *)

(** What a caller can do with the class: create an object, assign, and
    transfer.  The arguments are arbitrary values. *)
Inductive call :=
  | Construct (data_type : pyval)
  | Assign (self : addr) (value : pyval)
  | Transfer (self : addr) (other : pyval).

Definition run_call (k : call) : M unit :=
  match k with
  | Construct data_type => _ ← new_Variable data_type; mret tt
  | Assign self value => lshift self value
  | Transfer self other => rshift self other
  end.

(** The store after a sequence of calls; a caller that catches an
    exception goes on with the store as the failed call left it. *)
Definition run (ks : list call) (h : heap) : heap :=
  foldl (λ h k, (run_call k h).1) h ks.

(** The object at [a] has a value. *)
Definition is_set (h : heap) (a : addr) : bool :=
  match h !! a with
  | Some c => negb (is_None (data c))
  | None => false
  end.

(** Every object of the store has a declared type and a value related
    by [P]. *)
Definition cells_satisfy (P : pytype → pyval → Prop) (h : heap) : Prop :=
  ∀ a c, h !! a = Some c → P (type c) (data c).

(** Every object that has a value has one of its declared type. *)
Definition well_typed : heap → Prop :=
  cells_satisfy (λ t v, is_None v = false → isinstance v t = true).

(** No object holds a [Variable] as its value. *)
Definition raw_values : heap → Prop :=
  cells_satisfy (λ _ v, is_raw v = true).

(** ** Stores and programs used as examples *)

(** One unset object of type [t]: the store after [Variable(t)]. *)
Definition fresh_cell (t : pytype) : heap := {[ 0 := mkVariable t VNone ]}.

(** Two objects, at 0 and 1. *)
Definition two_cells (c0 c1 : Variable_) : heap := <[ 1 := c1 ]> {[ 0 := c0 ]}.

(** [Variable(t)], then [<< v], then [str]. *)
Definition construct_assign_display (E : interp) (depth : nat) (t : pytype)
    (v : pyval) : M string :=
  x ← new_Variable (VType t);
  lshift x v;;
  str_ E depth x.

(** * Properties *)

(** The demonstration prints what its comments say. *)
Example demo_output :
  (demo cpython ∅).2
    = Done (["3"; "3"; "4"; "3"; "4"; "hello, world"],
            [Some "Expected type str, got int.";
             Some "Type mismatch: Cannot assign str to int."]).
Proof. vm_compute. reflexivity. Qed.

(** ** The digit limit of [str] on integers *)

Lemma usize_nb_digits d :
  DecimalPos.Unsigned.usize d = N.of_nat (Decimal.nb_digits d).
Proof. induction d; simpl; rewrite ?IHd; lia. Qed.

Lemma of_lu_lt d :
  (DecimalPos.Unsigned.of_lu d < 10 ^ N.of_nat (Decimal.nb_digits d))%N.
Proof.
  induction d; simpl Decimal.nb_digits; simpl DecimalPos.Unsigned.of_lu;
    rewrite ?Nat2N.inj_succ, ?N.pow_succ_r'; lia.
Qed.

(** A number is below the power of ten of its number of digits. *)
Lemma to_uint_upper (n : N) :
  (n < 10 ^ N.of_nat (Decimal.nb_digits (N.to_uint n)))%N.
Proof.
  rewrite <- (DecimalN.Unsigned.of_to n) at 1.
  unfold N.of_uint. rewrite DecimalPos.Unsigned.of_uint_alt.
  rewrite <- (DecimalFacts.nb_digits_rev (N.to_uint n)). apply of_lu_lt.
Qed.

Lemma of_uint_ge_head d :
  d ≠ Decimal.Nil → Decimal.nzhead d = d →
  (10 ^ N.of_nat (Nat.pred (Decimal.nb_digits d)) ≤ N.of_uint d)%N.
Proof.
  intros Hnil Hnz. unfold N.of_uint. rewrite DecimalPos.Unsigned.of_uint_alt.
  destruct d as [|d|d|d|d|d|d|d|d|d|d]; [done| |..].
  { exfalso. simpl in Hnz.
    pose proof (DecimalFacts.nb_digits_nzhead d) as H. rewrite Hnz in H.
    simpl in H. lia. }
  all: unfold Decimal.rev; simpl Decimal.revapp;
    rewrite DecimalPos.Unsigned.of_lu_revapp, usize_nb_digits;
    simpl Decimal.nb_digits; simpl Nat.pred;
    simpl DecimalPos.Unsigned.of_lu; nia.
Qed.

(** A number other than 0 has no leading zero: it is at least the power
    of ten of its number of digits less one. *)
Lemma to_uint_lower (n : N) :
  n ≠ 0%N →
  (10 ^ N.of_nat (Nat.pred (Decimal.nb_digits (N.to_uint n))) ≤ n)%N.
Proof.
  intros Hn.
  pose proof (DecimalN.Unsigned.to_of (N.to_uint n)) as Hnorm.
  rewrite DecimalN.Unsigned.of_to in Hnorm.
  rewrite <- (DecimalN.Unsigned.of_to n) at 2.
  apply of_uint_ge_head.
  - destruct n; [done|]. apply DecimalPos.Unsigned.to_uint_nonnil.
  - unfold Decimal.unorm in Hnorm.
    destruct (Decimal.nzhead (N.to_uint n)) eqn:Hh; try congruence.
    exfalso. destruct n as [|p]; [done|].
    exact (DecimalPos.Unsigned.to_uint_nonzero p Hnorm).
Qed.

(** [z] has more than [k] digits exactly when its absolute value is at
    least the [k]-th power of ten. *)
Lemma num_digits_gt (k : nat) (z : Z) :
  k ≠ 0 → (k < num_digits z ↔ (10 ^ Z.of_nat k ≤ Z.abs z)%Z).
Proof.
  intros Hk. unfold num_digits.
  set (n := Z.abs_N z). assert (Z.abs z = Z.of_N n) as -> by (unfold n; lia).
  pose proof (to_uint_upper n) as Hup.
  set (m := Decimal.nb_digits (N.to_uint n)) in *.
  assert ((10 ^ Z.of_nat k)%Z = Z.of_N (10 ^ N.of_nat k)) as ->.
  { rewrite N2Z.inj_pow. f_equal. lia. }
  rewrite <- N2Z.inj_le.
  split.
  - intros Hlt. destruct (decide (n = 0%N)) as [Hz|Hnz].
    + exfalso. subst n. unfold m in Hlt. rewrite Hz in Hlt. simpl in Hlt. lia.
    + pose proof (to_uint_lower n Hnz) as Hlo. fold m in Hlo.
      etrans; [|exact Hlo]. apply N.pow_le_mono_r; lia.
  - intros Hle. destruct (decide (k < m)) as [|Hge]; [done|exfalso].
    assert (10 ^ N.of_nat m ≤ 10 ^ N.of_nat k)%N
      by (apply N.pow_le_mono_r; lia).
    lia.
Qed.

(** [str(z)] raises exactly when there is a limit and the absolute value
    of [z] is at least ten to the power of the limit: the limit is on the
    digits, not on the sign. *)
Lemma int_str_raises (E : interp) (z : Z) :
  is_ValueError (int_str E z) = true
  ↔ int_max_str_digits E ≠ 0
    ∧ (10 ^ Z.of_nat (int_max_str_digits E) ≤ Z.abs z)%Z.
Proof.
  unfold int_str, exceeds_digits. case_bool_decide as H; simpl.
  - split; [intros _|done]. destruct H as [Hl H]. split; [done|].
    by apply (num_digits_gt _ z Hl).
  - split; [done|]. intros [Hl Hz]. destruct H. split; [done|].
    by apply (num_digits_gt _ z Hl).
Qed.

(** With the default limit, 4300 digits pass with or without a sign,
    4301 do not; without a limit nothing is refused. *)
Example int_str_limit :
  is_ValueError (int_str cpython (10 ^ 4300)) = true
  ∧ is_ValueError (int_str cpython (- (10 ^ 4300 - 1))) = false
  ∧ (∀ z, is_ValueError (int_str (mkInterp "main" 0) z) = false).
Proof.
  pose proof (Z.pow_pos_nonneg 10 4300 eq_refl ltac:(discriminate)) as Hb.
  split_and!.
  - apply int_str_raises. split; [done|].
    change (Z.of_nat (int_max_str_digits cpython)) with 4300%Z.
    revert Hb. generalize (10 ^ 4300)%Z. intros b Hb. lia.
  - apply not_true_is_false. intros [_ H]%int_str_raises.
    change (Z.of_nat (int_max_str_digits cpython)) with 4300%Z in H.
    revert Hb H. generalize (10 ^ 4300)%Z. intros b Hb H. lia.
  - intros z. apply not_true_is_false. by intros [H _]%int_str_raises.
Qed.

(** ** What each method does, branch by branch *)

Section Methods.
Context (h : heap) (self : addr) (c : Variable_).
Hypothesis Hself : h !! self = Some c.

Lemma raw_not_Variable v : is_raw v = true → isinstance v TVariable = false.
Proof. by destruct v. Qed.

Lemma lshift_raw v :
  is_raw v = true →
  lshift self v h =
    if isinstance v (type c)
    then (<[self := mkVariable (type c) v]> h, Done tt)
    else (h, Raised (TypeError (msg_expected (type c) (type_of v)))).
Proof.
  intros Hv. unfold lshift, mbind, M_bind, get_type. rewrite Hself.
  rewrite (raw_not_Variable v Hv).
  destruct (isinstance v (type c)); simpl; [|done].
  unfold set_data. by rewrite Hself.
Qed.

Lemma lshift_ref s cs :
  h !! s = Some cs →
  lshift self (VRef s) h =
    if decide (type cs = type c)
    then (<[self := mkVariable (type c) (data cs)]> h, Done tt)
    else (h, Raised (TypeError (msg_assign (type cs) (type c)))).
Proof.
  intros Hs. unfold lshift, mbind, M_bind, get_type. rewrite Hself.
  simpl. rewrite Hs.
  destruct (decide (type cs = type c)) as [Heq|Hne].
  - rewrite bool_decide_eq_false_2 by (intros Hn; by apply Hn).
    unfold get_data, set_data. by rewrite Hs, Hself.
  - by rewrite bool_decide_eq_true_2 by done.
Qed.

Lemma rshift_raw v :
  is_raw v = true →
  rshift self v h =
    (h, Raised (TypeError "Right operand must be a `Variable` instance.")).
Proof. intros Hv. unfold rshift. by rewrite (raw_not_Variable v Hv). Qed.

Lemma rshift_ref o co :
  h !! o = Some co →
  rshift self (VRef o) h =
    if decide (type co = type c)
    then if is_None (data c)
         then (h, Raised (ValueError "Cannot transfer uninitialized data."))
         else (<[o := mkVariable (type co) (data c)]> h, Done tt)
    else (h, Raised (TypeError (msg_transfer (type c) (type co)))).
Proof.
  intros Ho. unfold rshift, mbind, M_bind, get_type. simpl.
  rewrite Ho, Hself.
  destruct (decide (type co = type c)) as [Heq|Hne].
  - rewrite bool_decide_eq_false_2 by (intros Hn; by apply Hn).
    unfold get_data. rewrite Hself. destruct (is_None (data c)); [done|].
    unfold set_data. by rewrite Ho.
  - by rewrite bool_decide_eq_true_2 by done.
Qed.
End Methods.

(** ** Assign: a raw value *)

(** C1, as stated, fails: [True] is assigned to a [Variable(int)] without
    a [TypeError], although its type is [bool] and not the declared
    [int]. *)
Lemma assign_exact_type_counterexample :
  new_Variable (VType TInt) ∅ = (fresh_cell TInt, Done 0)
  ∧ type_of (VBool true) ≠ TInt
  ∧ is_TypeError (lshift 0 (VBool true) (fresh_cell TInt)).2 = false
  ∧ lshift 0 (VBool true) (fresh_cell TInt)
      = ({[ 0 := mkVariable TInt (VBool true) ]}, Done tt).
Proof. split_and!; [vm_compute; reflexivity|done|reflexivity|vm_compute; reflexivity]. Qed.

(** C1 (amended): for a raw value, [self << value] raises a [TypeError]
    exactly when the value is not an instance of the declared type (its
    type is neither the declared type nor a subclass of it), leaving the
    store as it was; otherwise it returns and the value is stored. *)
Theorem assign_raw_isinstance (h : heap) self c v :
  h !! self = Some c →
  is_raw v = true →
  (is_TypeError (lshift self v h).2 = true ↔ isinstance v (type c) = false)
  ∧ (isinstance v (type c) = false → (lshift self v h).1 = h)
  ∧ (isinstance v (type c) = true →
     lshift self v h = (<[self := mkVariable (type c) v]> h, Done tt)).
Proof.
  intros Hself Hv. rewrite (lshift_raw h self c Hself v Hv).
  destruct (isinstance v (type c)); simpl; naive_solver.
Qed.

(** [True] into a [Variable(int)] and [3] into a [Variable(str)]. *)
Lemma assign_raw_isinstance_witness :
  lshift 0 (VBool true) (fresh_cell TInt)
    = ({[ 0 := mkVariable TInt (VBool true) ]}, Done tt)
  ∧ is_TypeError (lshift 0 (VInt 3) (fresh_cell TStr)).2 = true.
Proof.
  split.
  - pose proof (assign_raw_isinstance (fresh_cell TInt) 0
      (mkVariable TInt VNone) (VBool true) eq_refl eq_refl) as (_ & _ & H).
    rewrite (H eq_refl). vm_compute. reflexivity.
  - pose proof (assign_raw_isinstance (fresh_cell TStr) 0
      (mkVariable TStr VNone) (VInt 3) eq_refl eq_refl) as (H & _ & _).
    apply H. reflexivity.
Defined.

(** ** What a call can do to the store *)

(** Unfolds a method down to the reads and writes of the store. *)
Ltac unfold_method :=
  unfold lshift, rshift, new_Variable, mbind, M_bind, mret, M_ret,
    get_type, get_data, set_data, alloc, raise, wrong.

(** [<<] either leaves the store as it is, or it returns normally after
    one write to [self.data]: of the value itself when it is raw and an
    instance of the declared type, of the source's value when it is a
    [Variable] of the same declared type. *)
Lemma lshift_cases (h : heap) self v :
  (lshift self v h).1 = h ∧ (lshift self v h).2 ≠ Done tt
  ∨ ∃ c, h !! self = Some c
      ∧ (is_raw v = true ∧ isinstance v (type c) = true
           ∧ lshift self v h = (<[self := mkVariable (type c) v]> h, Done tt)
         ∨ ∃ s cs, v = VRef s ∧ h !! s = Some cs ∧ type cs = type c
           ∧ lshift self v h
               = (<[self := mkVariable (type c) (data cs)]> h, Done tt)).
Proof.
  destruct (h !! self) as [c|] eqn:Hself.
  - destruct (is_raw v) eqn:Hv.
    + rewrite (lshift_raw h self c Hself v Hv).
      destruct (isinstance v (type c)) eqn:Hi; [right|left; done].
      exists c. split; [done|]. by left.
    + destruct v as [| | | | |s]; try done.
      destruct (h !! s) as [cs|] eqn:Hs.
      * rewrite (lshift_ref h self c Hself s cs Hs).
        destruct (decide (type cs = type c)); [right|left; done].
        exists c. split; [done|]. right. by exists s, cs.
      * left. unfold_method. rewrite Hself. simpl. by rewrite Hs.
  - left. unfold_method. by rewrite Hself.
Qed.

(** [>>] either leaves the store as it is, or it returns normally after
    one write to [other.data] of the value of [self], which is not
    [None]; the two objects have the same declared type. *)
Lemma rshift_cases (h : heap) self other :
  (rshift self other h).1 = h ∧ (rshift self other h).2 ≠ Done tt
  ∨ ∃ c o co, h !! self = Some c ∧ other = VRef o ∧ h !! o = Some co
      ∧ type co = type c ∧ is_None (data c) = false
      ∧ rshift self other h
          = (<[o := mkVariable (type co) (data c)]> h, Done tt).
Proof.
  destruct (is_raw other) eqn:Hv.
  { left. unfold rshift. by rewrite (raw_not_Variable other Hv). }
  destruct other as [| | | | |o]; try done.
  destruct (h !! o) as [co|] eqn:Ho.
  - destruct (h !! self) as [c|] eqn:Hself.
    + rewrite (rshift_ref h self c Hself o co Ho).
      destruct (decide (type co = type c)); [|left; done].
      destruct (is_None (data c)) eqn:Hd; [left; done|right].
      by exists c, o, co.
    + left. unfold_method. simpl. by rewrite Ho, Hself.
  - left. unfold_method. simpl. by rewrite Ho.
Qed.

(** ** Transfer *)

(** C4: when [a] has a value and [b] has the same declared type,
    [a >> b] returns normally; afterwards [b] holds the value of [a]
    (under its own declared type) and [a] is as it was. *)
Theorem transfer_copies (h : heap) a b ca cb :
  h !! a = Some ca →
  h !! b = Some cb →
  type ca = type cb →
  is_None (data ca) = false →
  ∃ h', rshift a (VRef b) h = (h', Done tt)
        ∧ h' !! b = Some (mkVariable (type cb) (data ca))
        ∧ h' !! a = Some ca.
Proof.
  intros Ha Hb Ht Hd. rewrite (rshift_ref h a ca Ha b cb Hb).
  rewrite decide_True by done. rewrite Hd.
  eexists. split; [reflexivity|]. split; [apply lookup_insert_eq|].
  destruct (decide (b = a)) as [->|Hne].
  - rewrite lookup_insert_eq. simplify_eq. by destruct ca.
  - by rewrite lookup_insert_ne.
Qed.

(** [x] holds 4 and [y] holds 3, as in the demonstration. *)
Lemma transfer_copies_witness :
  ∃ h', rshift 0 (VRef 1)
          (two_cells (mkVariable TInt (VInt 4)) (mkVariable TInt (VInt 3)))
          = (h', Done tt)
        ∧ h' !! 1 = Some (mkVariable TInt (VInt 4))
        ∧ h' !! 0 = Some (mkVariable TInt (VInt 4)).
Proof.
  apply (transfer_copies
           (two_cells (mkVariable TInt (VInt 4)) (mkVariable TInt (VInt 3)))
           0 1 (mkVariable TInt (VInt 4)) (mkVariable TInt (VInt 3)));
    reflexivity.
Defined.

(** C5, as stated, fails: an unset [Variable(int)] transferred to a
    [Variable(str)] raises the [TypeError] of the type comparison, which
    comes first, and not the [ValueError] for the missing value. *)
Lemma transfer_unset_counterexample :
  let h := two_cells (mkVariable TInt VNone) (mkVariable TStr VNone) in
  run [Construct (VType TInt); Construct (VType TStr)] ∅ = h
  ∧ is_set h 0 = false
  ∧ is_ValueError (rshift 0 (VRef 1) h).2 = false
  ∧ (rshift 0 (VRef 1) h).2
      = Raised (TypeError "Type mismatch: Cannot transfer int to str.").
Proof. split_and!; vm_compute; reflexivity. Qed.

(** C5 (amended): [self >> target] on an unset [self] always raises and
    leaves the store, hence the target, as it was; it raises the
    [ValueError] when the target has the declared type of [self], and a
    [TypeError] when the declared types differ. *)
Theorem transfer_unset_fails (h : heap) self target c ct :
  h !! self = Some c →
  is_None (data c) = true →
  h !! target = Some ct →
  (rshift self (VRef target) h).1 = h
  ∧ is_Raised (rshift self (VRef target) h).2 = true
  ∧ (type ct = type c → is_ValueError (rshift self (VRef target) h).2 = true)
  ∧ (type ct ≠ type c → is_TypeError (rshift self (VRef target) h).2 = true).
Proof.
  intros Hself Hd Ht. rewrite (rshift_ref h self c Hself target ct Ht), Hd.
  destruct (decide (type ct = type c)); simpl; naive_solver.
Qed.

Lemma transfer_unset_fails_witness :
  let h := two_cells (mkVariable TInt VNone) (mkVariable TInt (VInt 3)) in
  (rshift 0 (VRef 1) h).1 = h
  ∧ is_Raised (rshift 0 (VRef 1) h).2 = true
  ∧ (TInt = TInt → is_ValueError (rshift 0 (VRef 1) h).2 = true)
  ∧ (TInt ≠ TInt → is_TypeError (rshift 0 (VRef 1) h).2 = true).
Proof.
  exact (transfer_unset_fails
           (two_cells (mkVariable TInt VNone) (mkVariable TInt (VInt 3)))
           0 1 (mkVariable TInt VNone) (mkVariable TInt (VInt 3))
           eq_refl eq_refl eq_refl).
Defined.

(** ** Failure leaves the store alone *)

(** C6: whenever [<<] or [>>] raises, whatever the receiver and the
    argument, the store is exactly as before the call: every object
    keeps its declared type and its value. *)
Theorem failed_call_changes_nothing (h : heap) self v :
  (is_Raised (lshift self v h).2 = true → (lshift self v h).1 = h)
  ∧ (is_Raised (rshift self v h).2 = true → (rshift self v h).1 = h).
Proof.
  split; intros Hr.
  - destruct (lshift_cases h self v) as [[Hh _]|(c & _ & [(_ & _ & Heq)|H])];
      [done| |].
    + by rewrite Heq in Hr.
    + destruct H as (s & cs & _ & _ & _ & Heq). by rewrite Heq in Hr.
  - destruct (rshift_cases h self v) as [[Hh _]|H]; [done|].
    destruct H as (c & o & co & _ & _ & _ & _ & _ & Heq). by rewrite Heq in Hr.
Qed.

(** The two failures of the demonstration: [z << 42] for a [Variable(str)]
    holding a string, and a transfer between an [int] and a [str]. *)
Lemma failed_call_changes_nothing_witness :
  let h := two_cells (mkVariable TStr (VStr "hello")) (mkVariable TInt (VInt 3)) in
  (lshift 0 (VInt 42) h).1 = h ∧ (rshift 0 (VRef 1) h).1 = h.
Proof.
  split.
  - apply (failed_call_changes_nothing
             (two_cells (mkVariable TStr (VStr "hello")) (mkVariable TInt (VInt 3)))
             0 (VInt 42)). reflexivity.
  - apply (failed_call_changes_nothing
             (two_cells (mkVariable TStr (VStr "hello")) (mkVariable TInt (VInt 3)))
             0 (VRef 1)). reflexivity.
Defined.

(** ** Assign: another [Variable] *)

(** C7: [self << source] for a [Variable] [source] raises a [TypeError]
    exactly when the two declared types differ; otherwise it returns
    normally with the value of [source] copied into [self], whether or
    not [source] has a value, and [source] is as it was. *)
Theorem assign_cell (h : heap) self source c cs :
  h !! self = Some c →
  h !! source = Some cs →
  (is_TypeError (lshift self (VRef source) h).2 = true ↔ type cs ≠ type c)
  ∧ (type cs = type c →
     ∃ h', lshift self (VRef source) h = (h', Done tt)
           ∧ h' !! self = Some (mkVariable (type c) (data cs))
           ∧ h' !! source = Some cs).
Proof.
  intros Hself Hs. rewrite (lshift_ref h self c Hself source cs Hs).
  destruct (decide (type cs = type c)) as [Heq|Hne]; simpl.
  - split; [naive_solver|]. intros _. eexists. split; [reflexivity|].
    split; [apply lookup_insert_eq|].
    destruct (decide (self = source)) as [->|Hd].
    + rewrite lookup_insert_eq. assert (cs = c) as -> by congruence.
      by destruct c.
    + by rewrite lookup_insert_ne.
  - split; [naive_solver|done].
Qed.

(** [x] holds 3 and takes the value of an unset [y]; and [y << z] with
    [z] a [Variable(str)] is refused. *)
Lemma assign_cell_witness :
  (∃ h', lshift 0 (VRef 1)
           (two_cells (mkVariable TInt (VInt 3)) (mkVariable TInt VNone))
           = (h', Done tt)
         ∧ h' !! 0 = Some (mkVariable TInt VNone)
         ∧ h' !! 1 = Some (mkVariable TInt VNone))
  ∧ is_TypeError
      (lshift 0 (VRef 1)
         (two_cells (mkVariable TInt (VInt 3)) (mkVariable TStr (VStr "hello")))).2
    = true.
Proof.
  split.
  - apply (assign_cell
             (two_cells (mkVariable TInt (VInt 3)) (mkVariable TInt VNone))
             0 1 (mkVariable TInt (VInt 3)) (mkVariable TInt VNone)
             eq_refl eq_refl).
    reflexivity.
  - apply (assign_cell
             (two_cells (mkVariable TInt (VInt 3)) (mkVariable TStr (VStr "hello")))
             0 1 (mkVariable TInt (VInt 3)) (mkVariable TStr (VStr "hello"))
             eq_refl eq_refl).
    discriminate.
Defined.

(** C10: for a [Variable] whose declared type is [Variable] itself, a
    [Variable] argument is an instance of the declared type, yet [<<]
    takes the branch for [Variable] arguments: it raises a [TypeError]
    unless the declared type of the argument is [Variable] too, and then
    it stores the argument's value, not the argument. *)
Theorem assign_cell_branch_first (h : heap) self w c cw :
  h !! self = Some c →
  type c = TVariable →
  h !! w = Some cw →
  isinstance (VRef w) (type c) = true
  ∧ (type cw ≠ TVariable →
     lshift self (VRef w) h
       = (h, Raised (TypeError (msg_assign (type cw) TVariable))))
  ∧ (type cw = TVariable →
     lshift self (VRef w) h
       = (<[self := mkVariable TVariable (data cw)]> h, Done tt)).
Proof.
  intros Hself Ht Hw. rewrite (lshift_ref h self c Hself w cw Hw), Ht.
  split; [reflexivity|].
  destruct (decide (type cw = TVariable)); naive_solver.
Qed.

(** [Variable(Variable) << Variable(int)] is refused, and
    [Variable(Variable) << Variable(Variable)] stores [None]. *)
Lemma assign_cell_branch_first_witness :
  lshift 0 (VRef 1)
    (two_cells (mkVariable TVariable VNone) (mkVariable TInt (VInt 3)))
    = (two_cells (mkVariable TVariable VNone) (mkVariable TInt (VInt 3)),
       Raised (TypeError "Type mismatch: Cannot assign int to Variable."))
  ∧ (lshift 0 (VRef 1)
       (two_cells (mkVariable TVariable (VType TInt)) (mkVariable TVariable VNone))).1
      !! 0 = Some (mkVariable TVariable VNone).
Proof.
  split.
  - apply (assign_cell_branch_first
             (two_cells (mkVariable TVariable VNone) (mkVariable TInt (VInt 3)))
             0 1 (mkVariable TVariable VNone) (mkVariable TInt (VInt 3))
             eq_refl eq_refl eq_refl).
    discriminate.
  - pose proof (assign_cell_branch_first
             (two_cells (mkVariable TVariable (VType TInt)) (mkVariable TVariable VNone))
             0 1 (mkVariable TVariable (VType TInt)) (mkVariable TVariable VNone)
             eq_refl eq_refl eq_refl) as (_ & _ & H).
    rewrite (H eq_refl). apply lookup_insert_eq.
Defined.

(** C9: when [self << v] returns normally, doing it again returns
    normally and leaves the store as the first call left it. *)
Theorem assign_idempotent (h h1 : heap) self v :
  lshift self v h = (h1, Done tt) →
  lshift self v h1 = (h1, Done tt).
Proof.
  intros H.
  destruct (lshift_cases h self v) as [[_ Hn]|(c & Hself & [Hraw|Href])].
  { by rewrite H in Hn. }
  - destruct Hraw as (Hv & Hi & Heq). rewrite Heq in H. simplify_eq.
    rewrite (lshift_raw _ self (mkVariable (type c) v)
               (lookup_insert_eq h self _) v Hv).
    simpl. rewrite Hi. by rewrite insert_insert_eq.
  - destruct Href as (s & cs & -> & Hs & Ht & Heq). rewrite Heq in H.
    simplify_eq.
    assert (∃ cs', <[self := mkVariable (type c) (data cs)]> h !! s = Some cs'
                   ∧ type cs' = type c ∧ data cs' = data cs)
      as (cs' & Hs' & Ht' & Hd').
    { destruct (decide (self = s)) as [->|Hne].
      - eexists. by rewrite lookup_insert_eq.
      - exists cs. by rewrite lookup_insert_ne. }
    rewrite (lshift_ref _ self (mkVariable (type c) (data cs))
               (lookup_insert_eq h self _) s cs' Hs').
    simpl. rewrite decide_True by done. by rewrite Hd', insert_insert_eq.
Qed.

Lemma assign_idempotent_witness :
  lshift 0 (VInt 3) {[ 0 := mkVariable TInt (VInt 3) ]}
    = ({[ 0 := mkVariable TInt (VInt 3) ]}, Done tt).
Proof.
  apply (assign_idempotent (fresh_cell TInt)). vm_compute. reflexivity.
Defined.

(** ** Construction *)

Lemma new_Variable_type (t : pytype) (h : heap) :
  new_Variable (VType t) h
    = (<[fresh (dom h) := mkVariable t VNone]> h, Done (fresh (dom h))).
Proof. reflexivity. Qed.

Lemma new_Variable_not_type (d : pyval) (h : heap) :
  (∀ t, d ≠ VType t) →
  new_Variable d h
    = (h, Raised (TypeError "`data_type` must be a valid Python type.")).
Proof. intros Hd. destruct d; try reflexivity. by destruct (Hd t). Qed.

Lemma fresh_unused (h : heap) : h !! fresh (dom h) = None.
Proof. apply not_elem_of_dom, is_fresh. Qed.

(** ** Set and unset *)

Lemma is_set_insert (h : heap) a b t v :
  is_set (<[b := mkVariable t v]> h) a
    = if decide (b = a) then negb (is_None v) else is_set h a.
Proof.
  unfold is_set. destruct (decide (b = a)) as [->|Hne].
  - by rewrite lookup_insert_eq.
  - by rewrite lookup_insert_ne.
Qed.

(** C3, as stated, fails: [x] holds 3, [y] is a new [Variable(int)], and
    [x << y] returns normally and leaves [x] without a value. *)
Lemma set_to_unset_counterexample :
  let h := two_cells (mkVariable TInt (VInt 3)) (mkVariable TInt VNone) in
  run [Construct (VType TInt); Assign 0 (VInt 3); Construct (VType TInt)] ∅ = h
  ∧ is_set h 0 = true
  ∧ (lshift 0 (VRef 1) h).2 = Done tt
  ∧ is_set (lshift 0 (VRef 1) h).1 0 = false.
Proof. split_and!; vm_compute; reflexivity. Qed.

(** C3 (amended): an object that has a value still has one after every
    [>>] that returns normally, after every [<<] of a raw value other
    than [None] that returns normally, and after every [<<] from a
    [Variable] that has a value that returns normally. *)
Theorem set_stays_set (h h' : heap) a :
  is_set h a = true →
  (∀ self other, rshift self other h = (h', Done tt) → is_set h' a = true)
  ∧ (∀ self v, is_raw v = true → is_None v = false →
       lshift self v h = (h', Done tt) → is_set h' a = true)
  ∧ (∀ self source, is_set h source = true →
       lshift self (VRef source) h = (h', Done tt) → is_set h' a = true).
Proof.
  intros Ha. split_and!.
  - intros self other H.
    destruct (rshift_cases h self other)
      as [[_ Hn]|(c & o & co & _ & _ & _ & _ & Hd & Heq)].
    { by rewrite H in Hn. }
    rewrite Heq in H. simplify_eq. rewrite is_set_insert, Hd.
    by case_decide.
  - intros self v Hv Hnone H.
    destruct (lshift_cases h self v) as [[_ Hn]|(c & _ & [Hraw|Href])].
    { by rewrite H in Hn. }
    + destruct Hraw as (_ & _ & Heq). rewrite Heq in H. simplify_eq.
      rewrite is_set_insert, Hnone. by case_decide.
    + destruct Href as (s & cs & -> & _). done.
  - intros self source Hsrc H.
    destruct (lshift_cases h self (VRef source))
      as [[_ Hn]|(c & _ & [Hraw|Href])].
    { by rewrite H in Hn. }
    + by destruct Hraw as (? & _).
    + destruct Href as (s & cs & [= <-] & Hs & _ & Heq).
      rewrite Heq in H. simplify_eq. rewrite is_set_insert.
      case_decide; [|done]. unfold is_set in Hsrc. by rewrite Hs in Hsrc.
Qed.

(** [y] holds 3 throughout: [x >> y], [y << 4], and [y << x] with [x]
    holding 4. *)
Lemma set_stays_set_witness :
  let h := two_cells (mkVariable TInt (VInt 4)) (mkVariable TInt (VInt 3)) in
  is_set (rshift 0 (VRef 1) h).1 1 = true
  ∧ is_set (lshift 1 (VInt 4) h).1 1 = true
  ∧ is_set (lshift 1 (VRef 0) h).1 1 = true.
Proof.
  split_and!.
  - pose proof (set_stays_set
      (two_cells (mkVariable TInt (VInt 4)) (mkVariable TInt (VInt 3)))
      (rshift 0 (VRef 1)
         (two_cells (mkVariable TInt (VInt 4)) (mkVariable TInt (VInt 3)))).1
      1 eq_refl) as (H & _ & _).
    apply (H 0 (VRef 1)). vm_compute. reflexivity.
  - pose proof (set_stays_set
      (two_cells (mkVariable TInt (VInt 4)) (mkVariable TInt (VInt 3)))
      (lshift 1 (VInt 4)
         (two_cells (mkVariable TInt (VInt 4)) (mkVariable TInt (VInt 3)))).1
      1 eq_refl) as (_ & H & _).
    apply (H 1 (VInt 4) eq_refl eq_refl). vm_compute. reflexivity.
  - pose proof (set_stays_set
      (two_cells (mkVariable TInt (VInt 4)) (mkVariable TInt (VInt 3)))
      (lshift 1 (VRef 0)
         (two_cells (mkVariable TInt (VInt 4)) (mkVariable TInt (VInt 3)))).1
      1 eq_refl) as (_ & _ & H).
    apply (H 1 0 eq_refl). vm_compute. reflexivity.
Defined.

(** ** The stored value has the declared type *)

(** A relation between declared type and value that holds of [None] and
    of every raw instance of the type holds of every object after every
    sequence of calls. *)
Section Invariant.
Context (P : pytype → pyval → Prop).
Hypothesis P_None : ∀ t, P t VNone.
Hypothesis P_instance :
  ∀ t v, is_raw v = true → isinstance v t = true → P t v.

Lemma cells_satisfy_empty : cells_satisfy P ∅.
Proof. intros a c H. by rewrite lookup_empty in H. Qed.

Lemma cells_satisfy_insert (h : heap) a t v :
  cells_satisfy P h → P t v → cells_satisfy P (<[a := mkVariable t v]> h).
Proof.
  intros Hh Hv b c Hb. apply lookup_insert_Some in Hb as [[_ <-]|[_ Hb]].
  - exact Hv.
  - by apply (Hh b c).
Qed.

Lemma new_Variable_cells_satisfy (h : heap) d :
  cells_satisfy P h → cells_satisfy P (new_Variable d h).1.
Proof.
  intros Hh. destruct d as [| | | |t|]; try done.
  rewrite new_Variable_type. simpl. by apply cells_satisfy_insert.
Qed.

Lemma lshift_cells_satisfy (h : heap) self v :
  cells_satisfy P h → cells_satisfy P (lshift self v h).1.
Proof.
  intros Hh.
  destruct (lshift_cases h self v) as [[-> _]|(c & Hself & [Hraw|Href])];
    [done| |].
  - destruct Hraw as (Hv & Hi & ->). simpl.
    by apply cells_satisfy_insert, P_instance.
  - destruct Href as (s & cs & _ & Hs & Ht & ->). simpl.
    apply cells_satisfy_insert; [done|]. rewrite <- Ht. by apply (Hh s cs).
Qed.

Lemma rshift_cells_satisfy (h : heap) self other :
  cells_satisfy P h → cells_satisfy P (rshift self other h).1.
Proof.
  intros Hh.
  destruct (rshift_cases h self other)
    as [[-> _]|(c & o & co & Hself & _ & _ & Ht & _ & ->)]; [done|].
  simpl. apply cells_satisfy_insert; [done|]. rewrite Ht.
  by apply (Hh self c).
Qed.

Lemma run_call_cells_satisfy (h : heap) k :
  cells_satisfy P h → cells_satisfy P (run_call k h).1.
Proof.
  intros Hh. destruct k as [d|self v|self other]; simpl.
  - pose proof (new_Variable_cells_satisfy h d Hh) as H.
    unfold mbind, M_bind. by destruct (new_Variable d h) as [h' [x|e|]].
  - by apply lshift_cells_satisfy.
  - by apply rshift_cells_satisfy.
Qed.

Lemma run_cells_satisfy (ks : list call) (h : heap) :
  cells_satisfy P h → cells_satisfy P (run ks h).
Proof.
  revert h. induction ks as [|k ks IH]; intros h Hh; [done|].
  apply IH. by apply run_call_cells_satisfy.
Qed.
End Invariant.

Lemma run_well_typed (ks : list call) : well_typed (run ks ∅).
Proof. apply run_cells_satisfy; [done|done|apply cells_satisfy_empty]. Qed.

(** No sequence of calls makes an object hold a [Variable]: [<<] stores
    the value of a [Variable] argument, never the argument. *)
Lemma run_raw_values (ks : list call) : raw_values (run ks ∅).
Proof. apply run_cells_satisfy; [done|done|apply cells_satisfy_empty]. Qed.

(** C2, as stated, fails when the declared type is to be matched
    exactly: after [x = Variable(int)] and [x << True], [x] holds a
    value whose type is [bool], not the declared [int]. *)
Lemma stored_exact_type_counterexample :
  run [Construct (VType TInt); Assign 0 (VBool true)] ∅ !! 0
    = Some (mkVariable TInt (VBool true))
  ∧ is_None (VBool true) = false
  ∧ type_of (VBool true) ≠ TInt.
Proof. split_and!; [vm_compute; reflexivity|reflexivity|done]. Qed.

(** C2 (amended): after every sequence of constructions, assignments
    and transfers, with whatever arguments and whether or not the calls
    raise, every object that has a value has one that is an instance of
    its declared type: of the declared type or of a subclass of it. *)
Theorem stored_value_has_declared_type (ks : list call) a c :
  run ks ∅ !! a = Some c →
  is_None (data c) = false →
  isinstance (data c) (type c) = true.
Proof. apply run_well_typed. Qed.

(** The store at the end of the demonstration, failed calls included:
    [y] holds 4. *)
Lemma stored_value_has_declared_type_witness :
  let ks := [Construct (VType TInt); Assign 0 (VInt 3);
             Construct (VType TInt); Assign 1 (VRef 0);
             Assign 0 (VInt 4); Transfer 0 (VRef 1);
             Construct (VType TStr); Assign 2 (VStr "hello, world");
             Assign 2 (VInt 42); Assign 1 (VRef 2)] in
  run ks ∅ !! 1 = Some (mkVariable TInt (VInt 4))
  ∧ isinstance (VInt 4) TInt = true.
Proof.
  intros ks. assert (run ks ∅ !! 1 = Some (mkVariable TInt (VInt 4))) as H.
  { vm_compute. reflexivity. }
  split; [exact H|].
  exact (stored_value_has_declared_type ks 1 (mkVariable TInt (VInt 4))
           H eq_refl).
Defined.

(** ** Display *)

(** The text of a raw value does not depend on the store. *)
Lemma py_str_raw_indep (E : interp) (f g : addr → outcome string) v :
  is_raw v = true → py_str E f v = py_str E g v.
Proof. by destruct v. Qed.

(** [Variable(t)], [<< v], [str] for a raw [v] other than [None] that
    is an instance of [t] gives what [str(v)] gives. *)
Lemma construct_assign_display_raw (E : interp) (h : heap) depth t v f :
  isinstance v t = true →
  is_raw v = true →
  is_None v = false →
  (construct_assign_display E (S depth) t v h).2 = py_str E f v.
Proof.
  intros Hi Hv Hn. unfold construct_assign_display, mbind, M_bind.
  rewrite new_Variable_type.
  rewrite (lshift_raw _ _ (mkVariable t VNone) (lookup_insert_eq h _ _) v Hv).
  simpl. rewrite Hi. unfold str_. simpl.
  rewrite lookup_insert_eq. simpl. rewrite Hn. simpl.
  apply (py_str_raw_indep E _ f v Hv).
Qed.

Lemma isinstance_int (z : Z) : isinstance (VInt z) TInt = true.
Proof. reflexivity. Qed.

(** For an integer that [str] refuses, the display raises too. *)
Lemma construct_assign_display_over_limit (E : interp) (h : heap) depth z :
  is_ValueError (int_str E z) = true →
  is_ValueError (construct_assign_display E (S depth) TInt (VInt z) h).2
    = true.
Proof.
  intros Hz.
  by rewrite (construct_assign_display_raw E h depth TInt (VInt z) (λ _, Wrong)
                (isinstance_int z) eq_refl eq_refl).
Qed.

(** C8, as stated, fails three ways.  [None] is a value of type
    [NoneType], and [Variable(NoneType)], [<< None], [str] gives the
    text for a [Variable] without a value, not the text of [None].  The
    text for a [Variable] without a value is also what is displayed for
    the string that reads so.  And for an integer of 4301 digits, which
    [str] refuses to convert, the display raises that [ValueError]. *)
Lemma display_none_counterexample :
  (isinstance VNone TNoneType = true
   ∧ (construct_assign_display cpython 1 TNoneType VNone ∅).2
       = Done "Uninitialized variable of type NoneType"
   ∧ py_str cpython (Variable_str cpython 1 ∅) VNone = Done "None")
  ∧ (isinstance (VStr "Uninitialized variable of type str") TStr = true
     ∧ (construct_assign_display cpython 1 TStr
          (VStr "Uninitialized variable of type str") ∅).2
       = ((x ← new_Variable (VType TStr); str_ cpython 1 x) ∅).2)
  ∧ (isinstance (VInt (10 ^ 4300)) TInt = true
     ∧ is_ValueError
         (construct_assign_display cpython 1 TInt (VInt (10 ^ 4300)) ∅).2
       = true).
Proof.
  split; [split_and!; vm_compute; reflexivity|].
  split; [split_and!; vm_compute; reflexivity|].
  split; [apply isinstance_int|].
  apply construct_assign_display_over_limit.
  destruct int_str_limit as [H _]. exact H.
Qed.

(** [str] of a raw value returns unless the value is an integer with
    too many digits, and then it raises the [ValueError]. *)
Lemma py_str_fits (E : interp) (f : addr → outcome string) v :
  is_raw v = true →
  if str_fits E v then ∃ s, py_str E f v = Done s
  else is_ValueError (py_str E f v) = true.
Proof.
  destruct v as [|z|[]| | |]; simpl; try by eauto.
  intros _. unfold int_str. destruct (exceeds_digits _ z); simpl; by eauto.
Qed.

(** C8 (amended): for every type [t] and every raw value [v] other than
    [None] that is an instance of [t], in any store, [Variable(t)] then
    [<< v] then [str] gives just what [str(v)] gives: it returns the
    text of [v] whenever [str(v)] returns, which it does unless [v] is an
    integer with more digits than the interpreter converts, and then it
    raises the [ValueError] of [str(v)]. *)
Theorem construct_assign_display_str (E : interp) (h : heap) depth t v :
  isinstance v t = true →
  is_raw v = true →
  is_None v = false →
  (∀ f, (construct_assign_display E (S depth) t v h).2 = py_str E f v)
  ∧ (str_fits E v = true →
     ∃ s, (∀ f, py_str E f v = Done s)
          ∧ (construct_assign_display E (S depth) t v h).2 = Done s)
  ∧ (str_fits E v = false →
     is_ValueError (construct_assign_display E (S depth) t v h).2 = true).
Proof.
  intros Hi Hv Hn.
  assert (∀ f, (construct_assign_display E (S depth) t v h).2 = py_str E f v)
    as Heq.
  { intros f. unfold construct_assign_display, mbind, M_bind.
    rewrite new_Variable_type.
    rewrite (lshift_raw _ _ (mkVariable t VNone) (lookup_insert_eq h _ _) v Hv).
    simpl. rewrite Hi. unfold str_. simpl.
    rewrite lookup_insert_eq. simpl. rewrite Hn. simpl.
    apply (py_str_raw_indep E _ f v Hv). }
  split; [exact Heq|].
  pose proof (py_str_fits E (λ _, Wrong) v Hv) as Hfit.
  split; intros Hf; rewrite Hf in Hfit.
  - destruct Hfit as [s Hs]. exists s. split.
    + intros f. by rewrite (py_str_raw_indep E f (λ _, Wrong) v Hv).
    + by rewrite (Heq (λ _, Wrong)).
  - by rewrite (Heq (λ _, Wrong)).
Qed.

(** The scenarios of the specification: 3 in a [Variable(int)], and
    zero, which is not confused with a missing value. *)
Lemma construct_assign_display_str_witness :
  (construct_assign_display cpython 1 TInt (VInt 3) ∅).2 = Done "3"
  ∧ (construct_assign_display cpython 1 TInt (VInt 0) ∅).2 = Done "0".
Proof.
  split.
  - destruct (construct_assign_display_str cpython ∅ 0 TInt (VInt 3)
                eq_refl eq_refl eq_refl) as (H & _ & _).
    rewrite (H (λ _, Wrong)). reflexivity.
  - destruct (construct_assign_display_str cpython ∅ 0 TInt (VInt 0)
                eq_refl eq_refl eq_refl) as (H & _ & _).
    rewrite (H (λ _, Wrong)). reflexivity.
Defined.

(** * Further properties of the class *)

(** ** Construction *)

(** X1: [Variable(d)] raises its [TypeError] and leaves the store as it
    was when [d] is not a class; when [d] is the class [t] it returns an
    address that was not in use, where an object of declared type [t]
    without a value now lives, and every other address is as before. *)
Theorem construct_fresh_unset (h : heap) d :
  (isinstance d TType = false →
   new_Variable d h
     = (h, Raised (TypeError "`data_type` must be a valid Python type.")))
  ∧ (isinstance d TType = true →
     ∃ t a h', d = VType t
       ∧ new_Variable d h = (h', Done a)
       ∧ h !! a = None
       ∧ h' !! a = Some (mkVariable t VNone)
       ∧ ∀ b, b ≠ a → h' !! b = h !! b).
Proof.
  split; intros Hd.
  - apply new_Variable_not_type. intros t ->. done.
  - destruct d as [| | | |t|]; try done.
    exists t, (fresh (dom h)), (<[fresh (dom h) := mkVariable t VNone]> h).
    split_and!; [done|apply new_Variable_type|apply fresh_unused| |].
    + apply lookup_insert_eq.
    + intros b Hb. by rewrite lookup_insert_ne.
Qed.

(** [Variable(3)] is refused; [Variable(str)] next to an [int] object. *)
Lemma construct_fresh_unset_witness :
  new_Variable (VInt 3) (fresh_cell TInt)
    = (fresh_cell TInt,
       Raised (TypeError "`data_type` must be a valid Python type."))
  ∧ ∃ t a h', VType TStr = VType t
      ∧ new_Variable (VType TStr) (fresh_cell TInt) = (h', Done a)
      ∧ fresh_cell TInt !! a = None
      ∧ h' !! a = Some (mkVariable t VNone)
      ∧ ∀ b, b ≠ a → h' !! b = fresh_cell TInt !! b.
Proof.
  split.
  - apply (construct_fresh_unset (fresh_cell TInt) (VInt 3)). reflexivity.
  - apply (construct_fresh_unset (fresh_cell TInt) (VType TStr)). reflexivity.
Defined.

(** ** What the calls leave alone *)

(** X2: [self << value] writes to [self] only: every other address is
    as before, whether the call returns or raises, and no object is
    created or removed. *)
Theorem assign_writes_self_only (h : heap) self value :
  (∀ a, a ≠ self → (lshift self value h).1 !! a = h !! a)
  ∧ dom (lshift self value h).1 = dom h.
Proof.
  destruct (lshift_cases h self value)
    as [[-> _]|(c & Hself & [(_ & _ & ->)|(s & cs & _ & _ & _ & ->)])];
    [done| |]; simpl.
  - split; [intros a Ha; by rewrite lookup_insert_ne|].
    by apply dom_insert_lookup_L.
  - split; [intros a Ha; by rewrite lookup_insert_ne|].
    by apply dom_insert_lookup_L.
Qed.

(** X3: [self >> other] writes to [other] only: every other address,
    [self] included when it is not [other], is as before, whether the
    call returns or raises, and no object is created or removed. *)
Theorem transfer_writes_target_only (h : heap) self other :
  (∀ a, other ≠ VRef a → (rshift self other h).1 !! a = h !! a)
  ∧ dom (rshift self other h).1 = dom h.
Proof.
  destruct (rshift_cases h self other)
    as [[-> _]|(c & o & co & _ & -> & Ho & _ & _ & ->)]; [done|]; simpl.
  split.
  - intros a Ha. rewrite lookup_insert_ne; [done|]. by intros ->.
  - by apply dom_insert_lookup_L.
Qed.

Lemma run_call_keeps_type (h : heap) k a c :
  h !! a = Some c →
  ∃ c', (run_call k h).1 !! a = Some c' ∧ type c' = type c.
Proof.
  intros Ha. destruct k as [d|self v|self other]; simpl.
  - unfold mbind, M_bind. destruct d as [| | | |t|]; try by exists c.
    rewrite new_Variable_type. simpl. exists c. split; [|done].
    rewrite lookup_insert_ne; [done|]. intros Heq.
    pose proof (fresh_unused h) as Hf. rewrite Heq in Hf. congruence.
  - destruct (lshift_cases h self v)
      as [[-> _]|(cs & Hself & [(_ & _ & ->)|(s & cs' & _ & _ & _ & ->)])];
      [by exists c| |]; simpl.
    + destruct (decide (self = a)) as [->|Hne].
      * rewrite lookup_insert_eq. eexists. split; [done|]. simpl. congruence.
      * rewrite lookup_insert_ne by done. by exists c.
    + destruct (decide (self = a)) as [->|Hne].
      * rewrite lookup_insert_eq. eexists. split; [done|]. simpl. congruence.
      * rewrite lookup_insert_ne by done. by exists c.
  - destruct (rshift_cases h self other)
      as [[-> _]|(cs & o & co & _ & _ & Ho & _ & _ & ->)]; [by exists c|].
    simpl. destruct (decide (o = a)) as [->|Hne].
    + rewrite lookup_insert_eq. eexists. split; [done|]. simpl. congruence.
    + rewrite lookup_insert_ne by done. by exists c.
Qed.

(** X4: an object, once created, stays in the store with the declared
    type it was created with, through every sequence of constructions,
    assignments and transfers, whatever their arguments and whether or
    not they raise. *)
Theorem declared_type_never_changes (ks : list call) (h : heap) a c :
  h !! a = Some c →
  ∃ c', run ks h !! a = Some c' ∧ type c' = type c.
Proof.
  revert h c. induction ks as [|k ks IH]; intros h c Ha; [by exists c|].
  destruct (run_call_keeps_type h k a c Ha) as (c1 & H1 & Ht1).
  destruct (IH _ c1 H1) as (c' & Hc' & Ht'). exists c'. split; [done|].
  congruence.
Qed.

(** A [Variable(int)] is still one after the assignments and the failed
    calls of the demonstration. *)
Lemma declared_type_never_changes_witness :
  ∃ c', run [Assign 0 (VInt 3); Assign 0 (VStr "hello"); Transfer 0 (VInt 1);
             Construct (VType TStr); Assign 0 (VRef 1); Assign 0 (VInt 4)]
          (fresh_cell TInt) !! 0 = Some c'
        ∧ type c' = TInt.
Proof.
  exact (declared_type_never_changes
           [Assign 0 (VInt 3); Assign 0 (VStr "hello"); Transfer 0 (VInt 1);
            Construct (VType TStr); Assign 0 (VRef 1); Assign 0 (VInt 4)]
           (fresh_cell TInt) 0 (mkVariable TInt VNone) eq_refl).
Defined.

(** [z << 42] fails and [z << "hi"] succeeds: [y] is untouched by both. *)
Lemma assign_writes_self_only_witness :
  let h := two_cells (mkVariable TStr VNone) (mkVariable TInt (VInt 3)) in
  (lshift 0 (VInt 42) h).1 !! 1 = h !! 1
  ∧ (lshift 0 (VStr "hi") h).1 !! 1 = h !! 1.
Proof.
  split.
  - apply (assign_writes_self_only
             (two_cells (mkVariable TStr VNone) (mkVariable TInt (VInt 3)))
             0 (VInt 42)). discriminate.
  - apply (assign_writes_self_only
             (two_cells (mkVariable TStr VNone) (mkVariable TInt (VInt 3)))
             0 (VStr "hi")). discriminate.
Defined.

(** [x >> y] leaves [x] as it was. *)
Lemma transfer_writes_target_only_witness :
  let h := two_cells (mkVariable TInt (VInt 4)) (mkVariable TInt (VInt 3)) in
  (rshift 0 (VRef 1) h).1 !! 0 = h !! 0.
Proof.
  apply (transfer_writes_target_only
           (two_cells (mkVariable TInt (VInt 4)) (mkVariable TInt (VInt 3)))
           0 (VRef 1)). discriminate.
Defined.

(** ** How the calls compose *)

(** X5: assignment from a [Variable] copies: after [y << x] and then
    [x << v], for two distinct objects of the same declared type and a
    raw [v] of that type, [y] holds what [x] held before and [x] holds
    [v]. *)
Theorem assign_copies_not_aliases (h : heap) x y cx cy v :
  h !! x = Some cx →
  h !! y = Some cy →
  x ≠ y →
  type cx = type cy →
  is_raw v = true →
  isinstance v (type cx) = true →
  ∃ h', (lshift y (VRef x);; lshift x v) h = (h', Done tt)
        ∧ h' !! y = Some (mkVariable (type cy) (data cx))
        ∧ h' !! x = Some (mkVariable (type cx) v).
Proof.
  intros Hx Hy Hne Ht Hv Hi. unfold mbind, M_bind.
  rewrite (lshift_ref h y cy Hy x cx Hx), decide_True by done.
  assert (<[y := mkVariable (type cy) (data cx)]> h !! x = Some cx) as Hx'.
  { by rewrite lookup_insert_ne. }
  rewrite (lshift_raw _ x cx Hx' v Hv), Hi.
  eexists. split; [reflexivity|]. split.
  - rewrite lookup_insert_ne by done. apply lookup_insert_eq.
  - apply lookup_insert_eq.
Qed.

(** The demonstration: [x] holds 3, [y << x], [x << 4]. *)
Lemma assign_copies_not_aliases_witness :
  ∃ h', (lshift 1 (VRef 0);; lshift 0 (VInt 4))
          (two_cells (mkVariable TInt (VInt 3)) (mkVariable TInt VNone))
          = (h', Done tt)
        ∧ h' !! 1 = Some (mkVariable TInt (VInt 3))
        ∧ h' !! 0 = Some (mkVariable TInt (VInt 4)).
Proof.
  apply (assign_copies_not_aliases
           (two_cells (mkVariable TInt (VInt 3)) (mkVariable TInt VNone))
           0 1 (mkVariable TInt (VInt 3)) (mkVariable TInt VNone) (VInt 4));
    (reflexivity || discriminate).
Defined.

(** X6: for two objects of the same declared type, [y << x] and
    [x >> y] are the same call when [x] has a value; when [x] has none,
    [y << x] returns normally while [x >> y] raises the [ValueError]. *)
Theorem assign_from_is_transfer_to (h : heap) x y cx cy :
  h !! x = Some cx →
  h !! y = Some cy →
  type cx = type cy →
  (is_None (data cx) = false → lshift y (VRef x) h = rshift x (VRef y) h)
  ∧ (is_None (data cx) = true →
     (lshift y (VRef x) h).2 = Done tt
     ∧ is_ValueError (rshift x (VRef y) h).2 = true).
Proof.
  intros Hx Hy Ht.
  rewrite (lshift_ref h y cy Hy x cx Hx), (rshift_ref h x cx Hx y cy Hy).
  rewrite !decide_True by done. split; intros ->; done.
Qed.

Lemma assign_from_is_transfer_to_witness :
  lshift 1 (VRef 0)
    (two_cells (mkVariable TInt (VInt 4)) (mkVariable TInt (VInt 3)))
  = rshift 0 (VRef 1)
      (two_cells (mkVariable TInt (VInt 4)) (mkVariable TInt (VInt 3)))
  ∧ is_ValueError
      (rshift 0 (VRef 1)
         (two_cells (mkVariable TInt VNone) (mkVariable TInt (VInt 3)))).2
    = true.
Proof.
  split.
  - apply (assign_from_is_transfer_to
             (two_cells (mkVariable TInt (VInt 4)) (mkVariable TInt (VInt 3)))
             0 1 (mkVariable TInt (VInt 4)) (mkVariable TInt (VInt 3))
             eq_refl eq_refl eq_refl).
    reflexivity.
  - apply (assign_from_is_transfer_to
             (two_cells (mkVariable TInt VNone) (mkVariable TInt (VInt 3)))
             0 1 (mkVariable TInt VNone) (mkVariable TInt (VInt 3))
             eq_refl eq_refl eq_refl).
    reflexivity.
Defined.

(** X7: when [a >> b] returns normally, [b >> a] right after returns
    normally too and changes nothing: the two objects already hold the
    same value. *)
Theorem transfer_back_changes_nothing (h h1 : heap) a b :
  rshift a (VRef b) h = (h1, Done tt) →
  rshift b (VRef a) h1 = (h1, Done tt).
Proof.
  intros H.
  destruct (rshift_cases h a (VRef b))
    as [[_ Hn]|(c & o & co & Ha & [= <-] & Hb & Ht & Hd & Heq)].
  { by rewrite H in Hn. }
  rewrite Heq in H. simplify_eq.
  assert (<[b := mkVariable (type co) (data c)]> h !! a
            = Some (mkVariable (type c) (data c))) as Ha'.
  { destruct (decide (b = a)) as [->|Hne].
    - rewrite lookup_insert_eq. congruence.
    - rewrite lookup_insert_ne by done. rewrite Ha. by destruct c. }
  rewrite (rshift_ref _ b (mkVariable (type co) (data c))
             (lookup_insert_eq h b _) a _ Ha').
  simpl. rewrite decide_True by done. rewrite Hd.
  by rewrite (insert_id _ _ _ Ha').
Qed.

Lemma transfer_back_changes_nothing_witness :
  rshift 1 (VRef 0)
    (two_cells (mkVariable TInt (VInt 4)) (mkVariable TInt (VInt 4)))
  = (two_cells (mkVariable TInt (VInt 4)) (mkVariable TInt (VInt 4)), Done tt).
Proof.
  apply (transfer_back_changes_nothing
           (two_cells (mkVariable TInt (VInt 4)) (mkVariable TInt (VInt 3)))
           _ 0 1).
  vm_compute. reflexivity.
Defined.

(** X8: an object assigned from itself, [x << x], always returns
    normally and changes nothing; transferred to itself, [x >> x], it
    changes nothing either, and returns normally exactly when it has a
    value. *)
Theorem self_assign_changes_nothing (h : heap) x c :
  h !! x = Some c →
  lshift x (VRef x) h = (h, Done tt)
  ∧ (rshift x (VRef x) h).1 = h
  ∧ ((rshift x (VRef x) h).2 = Done tt ↔ is_None (data c) = false).
Proof.
  intros Hx.
  assert (<[x := mkVariable (type c) (data c)]> h = h) as Hid.
  { apply insert_id. rewrite Hx. by destruct c. }
  rewrite (lshift_ref h x c Hx x c Hx), (rshift_ref h x c Hx x c Hx).
  rewrite !decide_True by done. rewrite Hid.
  destruct (is_None (data c)); simpl; naive_solver.
Qed.

Lemma self_assign_changes_nothing_witness :
  lshift 0 (VRef 0) (fresh_cell TInt) = (fresh_cell TInt, Done tt)
  ∧ (rshift 0 (VRef 0) (fresh_cell TInt)).1 = fresh_cell TInt
  ∧ ((rshift 0 (VRef 0) (fresh_cell TInt)).2 = Done tt
     ↔ is_None VNone = false).
Proof.
  exact (self_assign_changes_nothing (fresh_cell TInt) 0
           (mkVariable TInt VNone) eq_refl).
Defined.

(** ** Which calls raise, and what *)

(** X9: [<<] never raises a [ValueError]: the only exception it raises
    is the [TypeError], so the [except TypeError] of the demonstration
    lets nothing through, whatever is assigned to whatever object. *)
Theorem assign_raises_only_TypeError (h : heap) self c value :
  h !! self = Some c →
  is_ValueError (lshift self value h).2 = false
  ∧ is_Raised (except_TypeError (lshift self value) h).2 = false.
Proof.
  intros Hself. unfold except_TypeError.
  destruct (lshift_cases h self value)
    as [[_ Hn]|(c' & _ & [(_ & _ & ->)|(s & cs & _ & _ & _ & ->)])];
    [|done|done].
  destruct (is_raw value) eqn:Hv.
  - rewrite (lshift_raw h self c Hself value Hv) in *.
    by destruct (isinstance value (type c)).
  - destruct value as [| | | | |s]; try done.
    destruct (h !! s) as [cs|] eqn:Hs.
    + rewrite (lshift_ref h self c Hself s cs Hs) in *.
      by destruct (decide (type cs = type c)).
    + unfold_method. rewrite Hself. simpl. by rewrite Hs.
Qed.

Lemma assign_raises_only_TypeError_witness :
  let h := two_cells (mkVariable TStr (VStr "hello")) (mkVariable TInt VNone) in
  is_ValueError (lshift 1 (VRef 0) h).2 = false
  ∧ is_Raised (except_TypeError (lshift 1 (VRef 0)) h).2 = false.
Proof.
  exact (assign_raises_only_TypeError
           (two_cells (mkVariable TStr (VStr "hello")) (mkVariable TInt VNone))
           1 (mkVariable TInt VNone) (VRef 0) eq_refl).
Defined.

(** X10: [self >> other] returns normally exactly when [other] is a
    [Variable] of the declared type of [self] and [self] has a value;
    it raises the [ValueError] exactly when [other] is a [Variable] of
    that declared type and [self] has no value, the two type checks
    coming first. *)
Theorem transfer_outcome (h : heap) self other c :
  h !! self = Some c →
  ((rshift self other h).2 = Done tt
   ↔ is_None (data c) = false
     ∧ ∃ o co, other = VRef o ∧ h !! o = Some co ∧ type co = type c)
  ∧ (is_ValueError (rshift self other h).2 = true
     ↔ is_None (data c) = true
       ∧ ∃ o co, other = VRef o ∧ h !! o = Some co ∧ type co = type c).
Proof.
  intros Hself.
  destruct (is_raw other) eqn:Hv.
  { rewrite (rshift_raw h self other Hv). simpl.
    split; (split; [done|]); intros (_ & o & co & -> & _); done. }
  destruct other as [| | | | |o]; try done.
  destruct (h !! o) as [co|] eqn:Ho.
  - rewrite (rshift_ref h self c Hself o co Ho).
    destruct (decide (type co = type c)) as [Ht|Ht].
    + destruct (is_None (data c)); simpl; split; split;
        try done; try (intros [? _]; done); intros _; split; eauto.
    + simpl. split; (split; [done|]);
        intros (_ & o' & co' & [= <-] & ? & ?); simplify_eq.
  - assert (rshift self (VRef o) h = (h, Wrong)) as ->.
    { unfold_method. simpl. by rewrite Ho. }
    simpl. split; (split; [done|]);
      intros (_ & o' & co' & [= <-] & ? & ?); simplify_eq.
Qed.

Lemma transfer_outcome_witness :
  (rshift 0 (VRef 1)
     (two_cells (mkVariable TInt (VInt 4)) (mkVariable TInt VNone))).2
    = Done tt
  ∧ is_ValueError
      (rshift 1 (VRef 0)
         (two_cells (mkVariable TInt (VInt 4)) (mkVariable TInt VNone))).2
    = true.
Proof.
  split.
  - apply (transfer_outcome
             (two_cells (mkVariable TInt (VInt 4)) (mkVariable TInt VNone))
             0 (VRef 1) (mkVariable TInt (VInt 4)) eq_refl).
    split; [reflexivity|]. by exists 1, (mkVariable TInt VNone).
  - apply (transfer_outcome
             (two_cells (mkVariable TInt (VInt 4)) (mkVariable TInt VNone))
             1 (VRef 0) (mkVariable TInt VNone) eq_refl).
    split; [reflexivity|]. by exists 0, (mkVariable TInt (VInt 4)).
Defined.

(** X11: whenever [None] is an instance of the declared type, as it is
    for [NoneType] and for [object], [self << None] returns normally and
    the object then counts as having no value, whatever it held before,
    and is displayed as such: [None] is also the mark of a missing
    value. *)
Theorem assign_None_unsets (E : interp) (h : heap) self c depth :
  h !! self = Some c →
  (type c = TNoneType ∨ type c = TObject → isinstance VNone (type c) = true)
  ∧ (isinstance VNone (type c) = true →
     (lshift self VNone h).2 = Done tt
     ∧ is_set (lshift self VNone h).1 self = false
     ∧ Variable_str E (S depth) (lshift self VNone h).1 self
         = Done ("Uninitialized variable of type " +:+ type_name (type c))).
Proof.
  intros Hself. split.
  - by intros [->| ->].
  - intros Hi. rewrite (lshift_raw h self c Hself VNone eq_refl), Hi. simpl.
    split; [done|]. split.
    + by rewrite is_set_insert, decide_True.
    + by rewrite lookup_insert_eq.
Qed.

(** An [object] holding 3 is assigned [None]. *)
Lemma assign_None_unsets_witness :
  let h : heap := {[ 0 := mkVariable TObject (VInt 3) ]} in
  is_set h 0 = true
  ∧ (lshift 0 VNone h).2 = Done tt
  ∧ is_set (lshift 0 VNone h).1 0 = false
  ∧ Variable_str cpython 1 (lshift 0 VNone h).1 0
      = Done "Uninitialized variable of type object".
Proof.
  intros h. split; [reflexivity|].
  pose proof (assign_None_unsets cpython {[ 0 := mkVariable TObject (VInt 3) ]}
                0 (mkVariable TObject (VInt 3)) 0 eq_refl) as [Hin Hunset].
  apply Hunset, Hin. by right.
Defined.

(** ** Display *)

(** X12: no sequence of constructions, assignments and transfers from
    the empty store makes an object hold a [Variable] as its value:
    [<<] always takes the value out of a [Variable] argument, also for
    an object declared [object] or [Variable]. *)
Theorem no_object_holds_a_Variable (ks : list call) a c :
  run ks ∅ !! a = Some c → is_raw (data c) = true.
Proof. intros Hc. exact (run_raw_values ks a c Hc). Qed.

(** An [object] assigned a [Variable(object)] holding 3 holds 3. *)
Lemma no_object_holds_a_Variable_witness :
  let ks := [Construct (VType TObject); Assign 0 (VInt 3);
             Construct (VType TObject); Assign 1 (VRef 0)] in
  run ks ∅ !! 1 = Some (mkVariable TObject (VInt 3))
  ∧ is_raw (VInt 3) = true.
Proof.
  intros ks.
  assert (run ks ∅ !! 1 = Some (mkVariable TObject (VInt 3))) as H.
  { vm_compute. reflexivity. }
  split; [exact H|].
  exact (no_object_holds_a_Variable ks 1 (mkVariable TObject (VInt 3)) H).
Defined.

(** X13: in every store reached by calls from the empty one, [str] of
    an object makes no nested call, whatever the bound: it returns the
    text saying the object has no value and naming its declared type
    when its value is [None], and otherwise gives what [str] of its
    value gives, which returns unless the value is an integer with more
    digits than the interpreter converts. *)
Theorem display_of_reachable_object (E : interp) (ks : list call) a c depth :
  run ks ∅ !! a = Some c →
  Variable_str E (S depth) (run ks ∅) a
    = (if is_None (data c)
       then Done ("Uninitialized variable of type " +:+ type_name (type c))
       else py_str E (λ _, Wrong) (data c))
  ∧ Variable_str E (S depth) (run ks ∅) a ≠ Wrong
  ∧ (str_fits E (data c) = true →
     ∃ s, Variable_str E (S depth) (run ks ∅) a = Done s).
Proof.
  intros Hc. pose proof (run_raw_values ks a c Hc) as Hraw. simpl in Hraw.
  pose proof (py_str_fits E (λ _, Wrong) (data c) Hraw) as Hfit.
  assert (Variable_str E (S depth) (run ks ∅) a
          = (if is_None (data c)
             then Done ("Uninitialized variable of type "
                          +:+ type_name (type c))
             else py_str E (λ _, Wrong) (data c))) as Heq.
  { simpl. rewrite Hc. destruct (is_None (data c)); simpl; [done|].
    apply (py_str_raw_indep E _ _ _ Hraw). }
  rewrite Heq. split; [done|].
  destruct (is_None (data c)) eqn:Hn.
  { split; [done|]. by eauto. }
  destruct (str_fits E (data c)).
  - destruct Hfit as [s Hs]. rewrite Hs. split; [done|]. by eauto.
  - split; [|done]. by destruct (py_str E (λ _, Wrong) (data c)).
Qed.

Lemma display_of_reachable_object_witness :
  let ks := [Construct (VType TInt); Assign 0 (VInt 3);
             Construct (VType TStr); Assign 1 (VRef 0)] in
  Variable_str cpython 1 (run ks ∅) 0 = Done "3"
  ∧ Variable_str cpython 1 (run ks ∅) 1
      = Done "Uninitialized variable of type str".
Proof.
  intros ks. split.
  - assert (run ks ∅ !! 0 = Some (mkVariable TInt (VInt 3))) as H.
    { vm_compute. reflexivity. }
    destruct (display_of_reachable_object cpython ks 0 _ 0 H) as [-> _].
    reflexivity.
  - assert (run ks ∅ !! 1 = Some (mkVariable TStr VNone)) as H.
    { vm_compute. reflexivity. }
    destruct (display_of_reachable_object cpython ks 1 _ 0 H) as [-> _].
    reflexivity.
Defined.

(** X14: [str] of a [Variable] just created, in any store and for any
    class, is the text saying it has no value, with the name of the
    class. *)
Theorem display_of_new_Variable (E : interp) (h : heap) t depth :
  ((x ← new_Variable (VType t); str_ E (S depth) x) h).2
    = Done ("Uninitialized variable of type " +:+ type_name t).
Proof.
  unfold mbind, M_bind. rewrite new_Variable_type. unfold str_. simpl.
  by rewrite lookup_insert_eq.
Qed.

(** X15: when [self << v] returns normally for a raw [v] other than
    [None], [str(self)] right after gives just what [str(v)] gives,
    whatever the object held before: the text of [v], zero, [False] and
    the empty string included, unless [v] is an integer with more digits
    than the interpreter converts, and then the [ValueError] of
    [str(v)]. *)
Theorem display_after_assign (E : interp) (h h' : heap) self v depth :
  lshift self v h = (h', Done tt) →
  is_raw v = true →
  is_None v = false →
  (∀ f, str_ E (S depth) self h' = (h', py_str E f v))
  ∧ (str_fits E v = true →
     ∃ s, (∀ f, py_str E f v = Done s)
          ∧ str_ E (S depth) self h' = (h', Done s))
  ∧ (str_fits E v = false →
     is_ValueError (str_ E (S depth) self h').2 = true).
Proof.
  intros H Hv Hn.
  assert (∀ f, str_ E (S depth) self h' = (h', py_str E f v)) as Heq.
  { intros f.
    destruct (lshift_cases h self v)
      as [[_ Hd]|(c & _ & [(_ & _ & Heq)|(src & cs & -> & _)])];
      [by rewrite H in Hd| |done].
    rewrite Heq in H. simplify_eq. unfold str_. simpl.
    rewrite lookup_insert_eq. simpl. rewrite Hn. simpl.
    by rewrite (py_str_raw_indep E _ f v Hv). }
  split; [exact Heq|].
  pose proof (py_str_fits E (λ _, Wrong) v Hv) as Hfit.
  split; intros Hf; rewrite Hf in Hfit.
  - destruct Hfit as [s Hs]. exists s. split.
    + intros f. by rewrite (py_str_raw_indep E f (λ _, Wrong) v Hv).
    + by rewrite (Heq (λ _, Wrong)), Hs.
  - by rewrite (Heq (λ _, Wrong)).
Qed.

(** An [int] holding 3 takes 0, and a [bool] holding [True] takes
    [False]. *)
Lemma display_after_assign_witness :
  str_ cpython 1 0 {[ 0 := mkVariable TInt (VInt 0) ]}
    = ({[ 0 := mkVariable TInt (VInt 0) ]}, Done "0")
  ∧ str_ cpython 1 0 {[ 0 := mkVariable TBool (VBool false) ]}
      = ({[ 0 := mkVariable TBool (VBool false) ]}, Done "False").
Proof.
  split.
  - assert (lshift 0 (VInt 0) {[ 0 := mkVariable TInt (VInt 3) ]}
            = ({[ 0 := mkVariable TInt (VInt 0) ]}, Done tt)) as H.
    { vm_compute. reflexivity. }
    destruct (display_after_assign cpython _ _ 0 (VInt 0) 0 H eq_refl eq_refl)
      as (Heq & _ & _).
    rewrite (Heq (λ _, Wrong)). reflexivity.
  - assert (lshift 0 (VBool false) {[ 0 := mkVariable TBool (VBool true) ]}
            = ({[ 0 := mkVariable TBool (VBool false) ]}, Done tt)) as H.
    { vm_compute. reflexivity. }
    destruct (display_after_assign cpython _ _ 0 (VBool false) 0 H
                eq_refl eq_refl) as (Heq & _ & _).
    rewrite (Heq (λ _, Wrong)). reflexivity.
Defined.

(** Two objects with the same declared type and the same value display
    the same text. *)
Lemma Variable_str_same (E : interp) (h : heap) a b ca cb depth :
  h !! a = Some ca →
  h !! b = Some cb →
  type ca = type cb →
  data ca = data cb →
  Variable_str E depth h a = Variable_str E depth h b.
Proof.
  intros Ha Hb Ht Hd. destruct depth as [|d]; [done|]. simpl.
  by rewrite Ha, Hb, Ht, Hd.
Qed.

(** X16: after a copy in either direction that returns normally,
    [y << x] or [x >> y], the two objects display the same text; after
    [y << x] from an [x] without a value, that is the text for a missing
    value. *)
Theorem display_same_after_copy (E : interp) (h h1 : heap) x y depth :
  lshift y (VRef x) h = (h1, Done tt) ∨ rshift x (VRef y) h = (h1, Done tt) →
  Variable_str E depth h1 y = Variable_str E depth h1 x.
Proof.
  intros [H|H].
  - destruct (lshift_cases h y (VRef x))
      as [[_ Hn]|(c & Hy & [(? & _)|(s & cs & [= <-] & Hx & Ht & Heq)])];
      [by rewrite H in Hn|done|].
    rewrite Heq in H. simplify_eq.
    destruct (decide (y = x)) as [->|Hne]; [done|].
    eapply Variable_str_same;
      [apply lookup_insert_eq|by rewrite lookup_insert_ne|done..].
  - destruct (rshift_cases h x (VRef y))
      as [[_ Hn]|(c & o & co & Hx & [= <-] & Hy & Ht & _ & Heq)];
      [by rewrite H in Hn|].
    rewrite Heq in H. simplify_eq.
    destruct (decide (y = x)) as [->|Hne]; [done|].
    eapply Variable_str_same;
      [apply lookup_insert_eq|by rewrite lookup_insert_ne|done..].
Qed.

Lemma display_same_after_copy_witness :
  Variable_str cpython 1
    (two_cells (mkVariable TInt (VInt 4)) (mkVariable TInt (VInt 4))) 1
  = Variable_str cpython 1
      (two_cells (mkVariable TInt (VInt 4)) (mkVariable TInt (VInt 4))) 0.
Proof.
  apply (display_same_after_copy cpython
           (two_cells (mkVariable TInt (VInt 4)) (mkVariable TInt (VInt 3)))
           _ 0 1 1).
  right. vm_compute. reflexivity.
Defined.
